(** * web-search-ai-agent: the page scraper tool and the chat history

    A shallow embedding of [app.py]:
    - [EnchancedWebScraperTool.run] (lines 22-48): HTTP GET, HTML clean-up,
      text normalisation, truncation, and the blanket [except Exception];
    - the Streamlit script's handling of one user question (lines 118-158).

    Python strings are [string]s whose characters stand for the code points
    0..255.  The libraries the script calls ([requests.get], the HTML
    parser of [bs4], the LangChain agent) are parameters of the development,
    each giving a value or raising; the status check of [requests], the
    document tree that [bs4] builds and the traversals the script runs on it
    are modelled below. *)

From Stdlib Require Import Ascii String.
From stdpp Require Import base option list strings gmap.

Set Default Proof Using "Type".

(** ** Python characters and strings *)

Module Py.

(** The newline character, [chr(10)]. *)
Definition nl : ascii := "010"%char.
(** The space character. *)
Definition sp : ascii := " "%char.

(** [c.isspace()] for a code point below 256: TAB, LF, VT, FF, CR, the
    separators FS, GS, RS, US, the space, NEL and the no-break space. *)
Definition is_space (c : ascii) : bool :=
  match N_of_ascii c with
  | 9 | 10 | 11 | 12 | 13 | 28 | 29 | 30 | 31 | 32 | 133 | 160 => true
  | _ => false
  end%N.

(** The line boundaries of [str.splitlines] below 256: LF, VT, FF, CR, FS,
    GS, RS and NEL ([CR LF] counts as one boundary, see [splitlines_from]). *)
Definition is_linebreak (c : ascii) : bool :=
  match N_of_ascii c with
  | 10 | 11 | 12 | 13 | 28 | 29 | 30 | 133 => true
  | _ => false
  end%N.

Definition is_cr (c : ascii) : bool := Ascii.eqb c "013"%char.
Definition is_lf (c : ascii) : bool := Ascii.eqb c nl.

(** Truth value of a string: [bool(s)]. *)
Definition truthy (s : string) : bool :=
  match s with EmptyString => false | String _ _ => true end.

(** [s.lstrip()] *)
Fixpoint lstrip (s : string) : string :=
  match s with
  | EmptyString => EmptyString
  | String c s' => if is_space c then lstrip s' else s
  end.

(** [s.rstrip()] *)
Fixpoint rstrip (s : string) : string :=
  match s with
  | EmptyString => EmptyString
  | String c s' =>
      let r := rstrip s' in
      if is_space c && negb (truthy r) then EmptyString else String c r
  end.

(** [s.strip()] *)
Definition strip (s : string) : string := rstrip (lstrip s).

(** [sep.join(parts)] *)
Fixpoint join (sep : string) (parts : list string) : string :=
  match parts with
  | [] => EmptyString
  | [p] => p
  | p :: rest => p +:+ sep +:+ join sep rest
  end.

(** Putting a character in front of the first field of a scan. *)
Definition push (c : ascii) (fields : list string) : list string :=
  match fields with
  | [] => [String c EmptyString]
  | f :: fields' => String c f :: fields'
  end.

(** [s.splitlines()]: a line ends at a line boundary, [CR LF] counts as
    one boundary, and the characters after the last boundary are a line
    when there are any. *)
Fixpoint splitlines (s : string) : list string :=
  match s with
  | EmptyString => []
  | String c s' =>
      if is_cr c then
        match s' with
        | String c' s'' =>
            if is_lf c' then EmptyString :: splitlines s''
            else EmptyString :: splitlines s'
        | EmptyString => [EmptyString]
        end
      else if is_linebreak c then EmptyString :: splitlines s'
      else push c (splitlines s')
  end.

(** [s.split(sep)] for a one-character separator: every occurrence of
    [sep] ends a field, so adjacent separators give empty fields. *)
Fixpoint split (sep : ascii) (s : string) : list string :=
  match s with
  | EmptyString => [EmptyString]
  | String c s' =>
      if Ascii.eqb c sep then EmptyString :: split sep s'
      else push c (split sep s')
  end.

(** [len(s)] *)
Definition len (s : string) : nat := String.length s.

(** [s[:n]] *)
Definition slice_to (n : nat) (s : string) : string := String.substring 0 n s.

(** [needle in s] *)
Fixpoint contains (needle s : string) : bool :=
  String.prefix needle s ||
  match s with
  | EmptyString => false
  | String _ s' => contains needle s'
  end.

(** Every character of [s] satisfies [P]. *)
Fixpoint all_chars (P : ascii → bool) (s : string) : bool :=
  match s with
  | EmptyString => true
  | String c s' => P c && all_chars P s'
  end.

(** [s.endswith(p)] *)
Fixpoint endswith (p s : string) : bool :=
  String.eqb p s ||
  match s with
  | EmptyString => false
  | String _ s' => endswith p s'
  end.

End Py.

Arguments Py.is_space : simpl never.
Arguments Py.is_linebreak : simpl never.
Arguments Py.is_cr : simpl never.
Arguments Py.is_lf : simpl never.

(** ** Exceptions and results *)

(** A raised exception: its class name, [str(e)], and whether the class
    derives from [Exception] (so that [except Exception] catches it; the
    classes that do not are [KeyboardInterrupt], [SystemExit] and
    [GeneratorExit]). *)
Record exn := Exn {
  exc_class : string;
  exc_str : string;
  exc_is_Exception : bool
}.

(** Outcome of evaluating Python code: a value, or a raised exception. *)
Inductive res (A : Type) : Type :=
| Ok (a : A)
| Raise (e : exn).
Arguments Ok {A} a.
Arguments Raise {A} e.

#[global] Instance res_ret : MRet res := λ A a, Ok a.
#[global] Instance res_bind : MBind res := λ A B k m,
  match m with
  | Ok a => k a
  | Raise e => Raise e
  end.

(** [try: body  except Exception as e: handler(e)] *)
Definition try_except_Exception {A} (body : res A) (handler : exn → res A) : res A :=
  match body with
  | Ok a => Ok a
  | Raise e => if exc_is_Exception e then handler e else Raise e
  end.

(** ** Generators *)

(** A generator expression, as the sequence of results its successive
    [next] calls give: an item, or the exception raised while computing it
    (after which the generator is exhausted). *)
Definition generator (A : Type) : Type := list (res A).

(** Running a generator to its end, as [str.join] does with its argument:
    the items in order, or the first exception. *)
Fixpoint drain {A} (g : generator A) : res (list A) :=
  match g with
  | [] => Ok []
  | Ok a :: g' => items ← drain g'; mret (a :: items)
  | Raise e :: _ => Raise e
  end.

(** The objects on which the scraper looks up the attribute [strip]. *)
Inductive pyobj :=
| PyStr (s : string)
| PyGenerator.

(** [o.strip()]: the string method, or the [AttributeError] of an object
    that has no such attribute. *)
Definition AttributeError_strip : exn :=
  Exn "AttributeError" "'generator' object has no attribute 'strip'" true.

Definition call_strip (o : pyobj) : res string :=
  match o with
  | PyStr s => Ok (Py.strip s)
  | PyGenerator => Raise AttributeError_strip
  end.

(** ** The document tree built by bs4 *)

#[local] Unset Elimination Schemes.

(** A page element: a text string ([NavigableString] or [CData]), a
    string of a kind that [get_text] leaves out by default (comment,
    doctype, declaration, the strings inside template and ruby
    annotation elements), or a tag with its children in document order. *)
Inductive node :=
| NavigableString (s : string)
| Comment (s : string)
| Tag (name : string) (contents : list node).

#[local] Set Elimination Schemes.

(** The [BeautifulSoup] object: the top-level elements of the document. *)
Definition soup : Type := list node.

(** [for t in soup(names): t.extract()] (lines 31-32).  [soup(names)] is
    [find_all]: every tag, at any depth, whose name is in [names];
    [extract] detaches a tag, with its subtree, from its parent.  After the
    loop the tree of [soup] holds the elements that had no such tag on the
    path from the root to them. *)
Fixpoint discard (names : list string) (n : node) : option node :=
  match n with
  | Tag name contents =>
      if bool_decide (name ∈ names) then None
      else Some (Tag name (omap (discard names) contents))
  | _ => Some n
  end.

Definition extract_all (names : list string) (doc : soup) : soup :=
  omap (discard names) doc.

(** The text strings below an element, in document order
    ([_all_strings] with the default types). *)
Fixpoint all_strings (n : node) : list string :=
  match n with
  | NavigableString s => [s]
  | Comment _ => []
  | Tag _ contents => flat_map all_strings contents
  end.

(** [soup.get_text(separator, strip)]: with [strip], every string is
    stripped and left out when nothing remains. *)
Definition get_text (separator : string) (strip : bool) (doc : soup) : string :=
  let strings := flat_map all_strings doc in
  let strings :=
    if strip then List.filter Py.truthy (Py.strip <$> strings) else strings in
  Py.join separator strings.

(** ** The HTTP response *)

Record response := Response {
  status_code : Z;
  text : string
}.

(** [response.raise_for_status()] of the requests library: it raises an
    [HTTPError] for the client and server error statuses, 400 to 599, and
    returns for every other status.  [http_error_msg] is the message that
    the library makes of the status, the reason and the URL of the
    response. *)
Module Requests.

Definition HTTPError (message : string) : exn := Exn "HTTPError" message true.

Definition raise_for_status (http_error_msg : response → string) (r : response)
    : res unit :=
  if bool_decide (400 ≤ status_code r < 600)%Z
  then Raise (HTTPError (http_error_msg r))
  else Ok ().

End Requests.

(** ** EnchancedWebScraperTool *)

Module EnchancedWebScraperTool.

Record t := Build {
  name : string;
  description : string
}.

(** [__init__] *)
Definition init : t :=
  {| name := "WebScraper";
     description := "Scrape content from a website with advanced options. Input should be a URL" |}.

Definition headers : list (string * string) :=
  [("User-Agent",
    "Mozilla/5.0 (Windows NT 10.0; Win64, x64) AppleWebKit/537.36 (KHTML, like Gecko) Chrome/91.0.4472.124 Safari/537.36")].

Definition discarded : list string := ["script"; "style"; "footer"; "nav"; "aside"].

Definition max_length : nat := 4000.

Definition newline : string := String Py.nl EmptyString.

Definition truncation_marker : string :=
  "..." +:+ newline +:+ "[Content truncated due to length]".

(** [f"Content from {url}:\n\n{text}"] *)
Definition content_from (url text : string) : string :=
  "Content from " +:+ url +:+ ":" +:+ newline +:+ newline +:+ text.

(** [f"Error scraping {url}:{str(e)}"] *)
Definition error_scraping (url : string) (e : exn) : string :=
  "Error scraping " +:+ url +:+ ":" +:+ exc_str e.

(** Line 36, [lines = (lines.strip() for line in text.splitlines())].
    The body of a generator expression runs when the generator is advanced,
    in a scope of its own whose only local is [line]; the name [lines] in it
    is the variable of [run], which by then holds the generator itself. *)
Definition lines_gen (text : string) : generator string :=
  let lines := PyGenerator in
  (λ line : string, call_strip lines) <$> Py.splitlines text.

(** Line 37, [chunks = (phrase.strip() for line in lines
    for phrase in line.split(" "))]. *)
Fixpoint chunks_gen (lines : generator string) : generator string :=
  match lines with
  | [] => []
  | Ok line :: lines' =>
      ((λ phrase, call_strip (PyStr phrase)) <$> Py.split Py.sp line)
        ++ chunks_gen lines'
  | Raise e :: _ => [Raise e]
  end.

(** Line 38, ["\n".join(chunk for chunk in chunks if chunk)]. *)
Definition join_chunks (chunks : generator string) : res string :=
  chunks ← drain chunks;
  mret (Py.join newline (List.filter Py.truthy chunks)).

(** Lines 36-38: the normalised text, or the exception the generators
    raise while [join] drains them. *)
Definition normalize (text : string) : res string :=
  let lines := lines_gen text in
  let chunks := chunks_gen lines in
  join_chunks chunks.

(** Lines 42-43: the value of [text] after the conditional. *)
Definition truncate (text : string) : string :=
  if bool_decide (max_length < Py.len text)
  then Py.slice_to max_length text +:+ truncation_marker
  else text.

Section Run.

(** [requests.get(url, headers = headers, timeout = timeout)]: the
    response, or the exception of a failed request. *)
Variable requests_get : string → list (string * string) → Z → res response.

(** [response.raise_for_status()]: raises when the status of the
    response indicates a failure. *)
Variable raise_for_status : response → res unit.

(** [BeautifulSoup(markup, parser)]: the tree, or the exception of a
    parser that rejects the markup. *)
Variable BeautifulSoup : string → string → res soup.

(** Lines 29-34: the text of the page without the discarded elements. *)
Definition page_text (markup : string) : res string :=
  soup ← BeautifulSoup markup "html.parser";
  let soup := extract_all discarded soup in
  mret (get_text newline true soup).

(** Lines 29-43: the value of [text] when the [try] block has run
    through, for a response body [markup]. *)
Definition extract (markup : string) : res string :=
  text ← page_text markup;
  text ← normalize text;
  mret (truncate text).

(** [run] (lines 22-48).  [None] is the value of a call that reaches the
    end of the function body without a [return]. *)
Definition run (self : t) (url : string) : res (option string) :=
  try_except_Exception
    (response ← requests_get url headers 10;
     _ ← raise_for_status response;
     text ← page_text (text response);
     text ← normalize text;
     if bool_decide (max_length < Py.len text) then
       let text := Py.slice_to max_length text +:+ truncation_marker in
       mret (Some (content_from url text))
     else
       mret None)
    (λ e, mret (Some (error_scraping url e))).

End Run.

End EnchancedWebScraperTool.

(** ** The chat script (lines 118-158) *)

(** A chat message, [{"role": ..., "content": ...}]. *)
Record message := Message {
  role : string;
  content : string
}.

Module App.

(** [st.session_state], restricted to the entries that hold message
    lists; the script uses the key [messages]. *)
Abbreviation session_state := (gmap string (list message)).

(** Script code: it may update the session state and may raise.  The
    updates made before an exception is raised stay. *)
Definition script (A : Type) : Type := session_state → session_state * res A.

#[global] Instance script_ret : MRet script := λ A a st, (st, Ok a).
#[global] Instance script_bind : MBind script := λ A B k m st,
  match m st with
  | (st', Ok a) => k a st'
  | (st', Raise e) => (st', Raise e)
  end.

(** A call into a library that leaves the session state alone. *)
Definition call {A} (r : res A) : script A := λ st, (st, r).

(** [try: body  except Exception as e: handler(e)] *)
Definition try_except {A} (body : script A) (handler : exn → script A) : script A :=
  λ st,
    match body st with
    | (st', Ok a) => (st', Ok a)
    | (st', Raise e) => if exc_is_Exception e then handler e st' else (st', Raise e)
    end.

Definition AttributeError_messages : exn :=
  Exn "AttributeError" "st.session_state has no attribute 'messages'" true.

(** [st.session_state.messages.append(m)] *)
Definition append_message (m : message) : script unit := λ st,
  match st !! "messages" with
  | Some messages => (<["messages" := messages ++ [m]]> st, Ok ())
  | None => (st, Raise AttributeError_messages)
  end.

(** Lines 118-119. *)
Definition init_messages : script unit := λ st,
  match st !! "messages" with
  | None => (<["messages" := []]> st, Ok ())
  | Some _ => (st, Ok ())
  end.

(** The agent built by [initialize_web_agent], as its method [run]. *)
Definition agent : Type := string → res string.

(** Lines 135-158, the body of [if user_question and agent].  The calls
    that only draw on the page ([st.chat_message], [st.markdown],
    [st.status], [status.update], the placeholder) are left out. *)
Definition answer_question (agent : agent) (user_question : string) : script unit :=
  append_message (Message "user" user_question);;
  try_except
    (response ← call (agent user_question);
     append_message (Message "assistant" response))
    (λ e,
       let error_message := "An error occured " +:+ exc_str e in
       append_message (Message "assistant" error_message)).

(** One run of the script from line 118 on: [user_question] is the value
    of [st.chat_input] ([None] when nothing was submitted) and [agent] the
    agent, [None] when its construction failed (line 131). *)
Definition script_run (user_question : option string) (agent : option agent) : script unit :=
  init_messages;;
  match user_question, agent with
  | Some question, Some agent =>
      if Py.truthy question then answer_question agent question else mret ()
  | _, _ => mret ()
  end.

(** The stored history; empty before the first run. *)
Definition history (st : session_state) : list message :=
  default [] (st !! "messages").

(** Lines 127-131: the agent, or [None] when [initialize_web_agent]
    raised an exception that [except Exception] catches
    ([initialize_web_agent] here is the outcome of the call with the
    settings of the sidebar; [st.error] only draws on the page). *)
Definition build_agent (initialize_web_agent : res agent) : script (option agent) :=
  try_except
    (agent ← call initialize_web_agent; mret (Some agent))
    (λ e, mret None).

(** One run of the whole script from line 118 on, with the agent built on
    the way (lines 118-158). *)
Definition page (initialize_web_agent : res agent) (user_question : option string)
    : script unit :=
  init_messages;;
  agent ← build_agent initialize_web_agent;
  match user_question, agent with
  | Some question, Some agent =>
      if Py.truthy question then answer_question agent question else mret ()
  | _, _ => mret ()
  end.

End App.

(** ** Notions used to state the properties *)

(** Induction on page elements, with the children of a tag covered. *)
Section node_induction.
Variable P : node → Prop.
Hypothesis P_string : ∀ s, P (NavigableString s).
Hypothesis P_comment : ∀ s, P (Comment s).
Hypothesis P_tag : ∀ name contents, Forall P contents → P (Tag name contents).

Fixpoint node_ind (n : node) : P n :=
  match n with
  | NavigableString s => P_string s
  | Comment s => P_comment s
  | Tag name contents =>
      P_tag name contents
        ((fix children (l : list node) : Forall P l :=
            match l with
            | [] => Forall_nil_2 P
            | n' :: l' => Forall_cons_2 P n' l' (node_ind n') (children l')
            end) contents)
  end.
End node_induction.

(** A tag with one of the [names] occurs in the element, at any depth. *)
Inductive has_tag (names : list string) : node → Prop :=
| has_tag_here name contents :
    name ∈ names → has_tag names (Tag name contents)
| has_tag_below name contents n :
    n ∈ contents → has_tag names n → has_tag names (Tag name contents).

(** The text string [s] occurs in the element with no tag named in
    [names] around it. *)
Inductive occurs_outside (names : list string) (s : string) : node → Prop :=
| occurs_here : occurs_outside names s (NavigableString s)
| occurs_below name contents n :
    name ∉ names → n ∈ contents → occurs_outside names s n →
    occurs_outside names s (Tag name contents).

(** A history made of questions, each followed by its reply. *)
Inductive paired : list message → Prop :=
| paired_nil : paired []
| paired_cons question reply history :
    paired history →
    paired (Message "user" question :: Message "assistant" reply :: history).

(** A line that is not empty and has no white space at either end. *)
Definition stripped_phrase (line : string) : Prop :=
  Py.truthy line = true ∧ Py.strip line = line.

(** No character of the string is a line boundary. *)
Definition no_linebreak (s : string) : bool :=
  Py.all_chars (λ c, negb (Py.is_linebreak c)) s.

(** The string starts with a character that is not white space. *)
Definition starts_clean (s : string) : bool :=
  match s with
  | EmptyString => false
  | String c _ => negb (Py.is_space c)
  end.

(** The string ends with a character that is not white space. *)
Fixpoint ends_clean (s : string) : bool :=
  match s with
  | EmptyString => false
  | String c EmptyString => negb (Py.is_space c)
  | String _ s' => ends_clean s'
  end.

(** A chunk as line 38 keeps them: on one line, with no white space at
    either end. *)
Definition good_chunk (s : string) : Prop :=
  no_linebreak s = true ∧ starts_clean s = true ∧ ends_clean s = true.

(** The length of a text without the truncation marker, when the text
    ends with it. *)
Definition len_without_marker (out : string) : nat :=
  if Py.endswith EnchancedWebScraperTool.truncation_marker out
  then Py.len out - Py.len EnchancedWebScraperTool.truncation_marker
  else Py.len out.

(** The normalisation in the words of section 4.1 of the specification:
    strip each line, split each line on single spaces into phrases, strip
    each phrase, discard the empty phrases, and join the others with
    newlines.  It is what lines 36-38 compute when the expression of line
    36 reads [line.strip()]. *)
Definition spec_normalize (text : string) : string :=
  let lines := Py.strip <$> Py.splitlines text in
  let phrases := flat_map (Py.split Py.sp) lines in
  let chunks := Py.strip <$> phrases in
  Py.join EnchancedWebScraperTool.newline (List.filter Py.truthy chunks).

(** The character [c] occurs in the string. *)
Fixpoint has_char (c : ascii) (s : string) : bool :=
  match s with
  | EmptyString => false
  | String c' s' => Ascii.eqb c' c || has_char c s'
  end.

(** A string of [n] copies of the character [c]. *)
Fixpoint replicate_char (n : nat) (c : ascii) : string :=
  match n with
  | 0 => EmptyString
  | S n' => String c (replicate_char n' c)
  end.

(** ** Sample requests and pages *)

Module Sample.

Definition url : string := "http://example.com".

(** A server that answers every request with the given status and body. *)
Definition serve (status : Z) (body : string)
    : string → list (string * string) → Z → res response :=
  λ _ _ _, Ok (Response status body).

(** A request that times out. *)
Definition timed_out : exn := Exn "ConnectTimeout" "timed out" true.

Definition unreachable : string → list (string * string) → Z → res response :=
  λ _ _ _, Raise timed_out.

(** A status check that raises for the client and server error codes. *)
Definition http_error : exn := Exn "HTTPError" "HTTP error status" true.

Definition status_check (r : response) : res unit :=
  if bool_decide (400 ≤ status_code r < 600)%Z then Raise http_error else Ok ().

(** Four pages and the trees a parser gives for them. *)
Definition empty_markup : string := "<html><body></body></html>".
Definition empty_doc : soup := [Tag "html" [Tag "body" []]].

Definition hello_markup : string :=
  "<html><body><p>Hello   world</p></body></html>".
Definition hello_doc : soup :=
  [Tag "html" [Tag "body" [Tag "p" [NavigableString "Hello   world"]]]].

Definition secret_markup : string :=
  "<html><head><script>secret</script></head><body><nav><a>Home</a></nav><p>Hi there</p></body></html>".
Definition secret_doc : soup :=
  [Tag "html"
     [Tag "head" [Tag "script" [NavigableString "secret"]];
      Tag "body" [Tag "nav" [Tag "a" [NavigableString "Home"]];
                  Tag "p" [NavigableString "Hi there"]]]].

Definition long_word : string := replicate_char 4001 "a".
Definition long_markup : string := "<p>" +:+ long_word +:+ "</p>".
Definition long_doc : soup := [Tag "p" [NavigableString long_word]].

(** A declaration that the parser rejects. *)
Definition rejected_markup : string := "<![ x ]>".
Definition parser_error : exn :=
  Exn "ParserRejectedMarkup" "expected name token" true.

Definition parser (markup builder : string) : res soup :=
  if String.eqb markup empty_markup then Ok empty_doc
  else if String.eqb markup hello_markup then Ok hello_doc
  else if String.eqb markup secret_markup then Ok secret_doc
  else if String.eqb markup long_markup then Ok long_doc
  else if String.eqb markup rejected_markup then Raise parser_error
  else Ok [NavigableString markup].

(** The message of an [HTTPError], cut down to the status class. *)
Definition http_error_msg (r : response) : string :=
  if bool_decide (status_code r < 500)%Z then "Client Error" else "Server Error".

(** A stored history, an agent that answers and one that fails. *)
Definition earlier : list message :=
  [Message "user" "hi"; Message "assistant" "Hello, what would you like to know?"].

Definition session : App.session_state := {["messages" := earlier]}.

Definition answering_agent : App.agent := λ question, Ok ("Answer to " +:+ question).

Definition failing_agent : App.agent :=
  λ _, Raise (Exn "AuthenticationError" "no API key" true).

(** A request and an agent interrupted from the keyboard. *)
Definition interrupt : exn := Exn "KeyboardInterrupt" EmptyString false.

Definition interrupted : string → list (string * string) → Z → res response :=
  λ _ _ _, Raise interrupt.

Definition interrupted_agent : App.agent := λ _, Raise interrupt.

(** A page with nothing but a script, a comment and white space. *)
Definition blank_markup : string :=
  "<html><head><script>var x = 1;</script></head><body><!-- empty --> <p>  </p></body></html>".
Definition blank_doc : soup :=
  [Tag "html"
     [Tag "head" [Tag "script" [NavigableString "var x = 1;"]];
      Tag "body" [Comment " empty "; NavigableString " ";
                  Tag "p" [NavigableString "  "]]]].

Definition blank_parser (markup builder : string) : res soup := Ok blank_doc.

End Sample.

(** * Properties *)

(** ** The normalisation step as it is written *)

Import EnchancedWebScraperTool.

Lemma push_not_nil c fields : Py.push c fields ≠ [].
Proof. by destruct fields. Qed.

(** A text with at least one character has at least one line. *)
Lemma splitlines_not_nil c s : Py.splitlines (String c s) ≠ [].
Proof.
  simpl. destruct (Py.is_cr c).
  - destruct s as [|c' s']; [done|]. by destruct (Py.is_lf c').
  - destruct (Py.is_linebreak c); [done|]. apply push_not_nil.
Qed.

(** The first [next] on the generator of line 36 raises. *)
Lemma lines_gen_raises c s :
  ∃ rest, lines_gen (String c s) = Raise AttributeError_strip :: rest.
Proof.
  unfold lines_gen.
  destruct (Py.splitlines (String c s)) as [|line rest] eqn:E.
  - by apply splitlines_not_nil in E.
  - by exists ((λ _, call_strip PyGenerator) <$> rest).
Qed.

Lemma normalize_empty : normalize EmptyString = Ok EmptyString.
Proof. reflexivity. Qed.

Lemma normalize_nonempty text :
  Py.truthy text = true → normalize text = Raise AttributeError_strip.
Proof.
  destruct text as [|c s]; [done|]. intros _.
  unfold normalize. destruct (lines_gen_raises c s) as [rest ->]. reflexivity.
Qed.

(** What lines 36-38 yield: nothing but the empty text. *)
Lemma normalize_Ok_inv text out :
  normalize text = Ok out → text = EmptyString ∧ out = EmptyString.
Proof.
  destruct (Py.truthy text) eqn:E.
  - rewrite normalize_nonempty; done.
  - destruct text; [|done]. rewrite normalize_empty. by intros [= <-].
Qed.

Section Run.
Variable requests_get : string → list (string * string) → Z → res response.
Variable raise_for_status : response → res unit.
Variable BeautifulSoup : string → string → res soup.

Abbreviation run := (run requests_get raise_for_status BeautifulSoup).
Abbreviation page_text := (page_text BeautifulSoup).
Abbreviation extract := (extract BeautifulSoup).

Lemma page_text_Ok markup doc :
  BeautifulSoup markup "html.parser" = Ok doc →
  page_text markup = Ok (get_text newline true (extract_all discarded doc)).
Proof. intros H. unfold EnchancedWebScraperTool.page_text. by rewrite H. Qed.

Lemma page_text_Raise markup e :
  BeautifulSoup markup "html.parser" = Raise e → page_text markup = Raise e.
Proof. intros H. unfold EnchancedWebScraperTool.page_text. by rewrite H. Qed.

Lemma page_text_Ok_inv markup page :
  page_text markup = Ok page →
  ∃ doc, BeautifulSoup markup "html.parser" = Ok doc ∧
         page = get_text newline true (extract_all discarded doc).
Proof.
  unfold EnchancedWebScraperTool.page_text.
  destruct (BeautifulSoup markup "html.parser") as [doc|e]; [|done].
  intros [= <-]. by exists doc.
Qed.

(** [run] once the request has succeeded and the status check passed. *)
Lemma run_fetched self url r :
  requests_get url headers 10 = Ok r →
  raise_for_status r = Ok () →
  run self url =
    match page_text (text r) with
    | Ok page =>
        if Py.truthy page
        then Ok (Some (error_scraping url AttributeError_strip))
        else Ok None
    | Raise e =>
        if exc_is_Exception e then Ok (Some (error_scraping url e)) else Raise e
    end.
Proof.
  intros Hget Hstatus. unfold EnchancedWebScraperTool.run.
  rewrite Hget. simpl. rewrite Hstatus. simpl.
  destruct (page_text (text r)) as [page|e]; [|done]. simpl.
  destruct (Py.truthy page) eqn:E.
  - by rewrite normalize_nonempty.
  - destruct page; [|done]. reflexivity.
Qed.

Lemma run_get_raised self url e :
  requests_get url headers 10 = Raise e →
  run self url =
    if exc_is_Exception e then Ok (Some (error_scraping url e)) else Raise e.
Proof. intros Hget. unfold EnchancedWebScraperTool.run. by rewrite Hget. Qed.

Lemma run_status_raised self url r e :
  requests_get url headers 10 = Ok r →
  raise_for_status r = Raise e →
  run self url =
    if exc_is_Exception e then Ok (Some (error_scraping url e)) else Raise e.
Proof.
  intros Hget Hstatus. unfold EnchancedWebScraperTool.run.
  rewrite Hget. simpl. by rewrite Hstatus.
Qed.

Lemma run_parser_raised self url r e :
  requests_get url headers 10 = Ok r →
  raise_for_status r = Ok () →
  BeautifulSoup (text r) "html.parser" = Raise e →
  run self url =
    if exc_is_Exception e then Ok (Some (error_scraping url e)) else Raise e.
Proof.
  intros Hget Hstatus Hparse.
  by rewrite (run_fetched _ _ _ Hget Hstatus), (page_text_Raise _ _ Hparse).
Qed.

(** What leaves [run] as an exception was not for [except Exception]. *)
Lemma run_Raise_inv self url e :
  run self url = Raise e → exc_is_Exception e = false.
Proof.
  unfold EnchancedWebScraperTool.run, try_except_Exception.
  match goal with |- match ?body with _ => _ end = _ → _ =>
    destruct body as [v|e']
  end; [done|].
  destruct (exc_is_Exception e') eqn:E; [done|]. by intros [= <-].
Qed.

(** C3.  When the request succeeds, the status check passes and the page
    has some text, draining the generators raises the [AttributeError]
    of [lines.strip()]; [run] returns the error payload, and it returns
    the success payload for no text at all. *)
Theorem run_text_page_is_error self url r page :
  requests_get url headers 10 = Ok r →
  raise_for_status r = Ok () →
  page_text (text r) = Ok page →
  page ≠ EmptyString →
  normalize page = Raise AttributeError_strip ∧
  exc_class AttributeError_strip = "AttributeError" ∧
  run self url = Ok (Some (error_scraping url AttributeError_strip)) ∧
  ∀ text', run self url ≠ Ok (Some (content_from url text')).
Proof.
  intros Hget Hst Hpage Htext.
  assert (Py.truthy page = true) as Ht by by destruct page.
  split; [by apply normalize_nonempty|]. split; [done|].
  rewrite (run_fetched _ _ _ Hget Hst), Hpage, Ht. split; [done|].
  intros text' H. by injection H.
Qed.

End Run.

Section Failures.
Variable requests_get : string → list (string * string) → Z → res response.
Variable http_error_msg : response → string.
Variable BeautifulSoup : string → string → res soup.

Abbreviation run_checked :=
  (run requests_get (Requests.raise_for_status http_error_msg) BeautifulSoup).

Lemma raise_for_status_error r :
  (400 ≤ status_code r < 600)%Z →
  Requests.raise_for_status http_error_msg r
  = Raise (Requests.HTTPError (http_error_msg r)).
Proof. intros H. unfold Requests.raise_for_status. by rewrite bool_decide_eq_true_2. Qed.

Lemma raise_for_status_pass r :
  ¬ (400 ≤ status_code r < 600)%Z →
  Requests.raise_for_status http_error_msg r = Ok ().
Proof. intros H. unfold Requests.raise_for_status. by rewrite bool_decide_eq_false_2. Qed.

(** C2, as amended.  [run] raises no instance of [Exception]: a request
    that raises one, a response with a client or server error status
    (400 to 599, the statuses for which [raise_for_status] raises) and a
    parser that raises one each give the string
    ["Error scraping {url}:{message}"].  The other statuses pass the
    check, and an exception outside [Exception] is not caught. *)
Theorem run_raises_no_Exception self url :
  (∀ e, run_checked self url = Raise e → exc_is_Exception e = false) ∧
  (∀ e, requests_get url headers 10 = Raise e →
        exc_is_Exception e = true →
        run_checked self url = Ok (Some (error_scraping url e))) ∧
  (∀ r, requests_get url headers 10 = Ok r →
        (400 ≤ status_code r < 600)%Z →
        run_checked self url
        = Ok (Some (error_scraping url (Requests.HTTPError (http_error_msg r))))) ∧
  (∀ r e, requests_get url headers 10 = Ok r →
          ¬ (400 ≤ status_code r < 600)%Z →
          BeautifulSoup (text r) "html.parser" = Raise e →
          exc_is_Exception e = true →
          run_checked self url = Ok (Some (error_scraping url e))).
Proof.
  split; [intros e; apply run_Raise_inv|]. split; [|split].
  - intros e Hget He. by rewrite (run_get_raised _ _ _ _ _ _ Hget), He.
  - intros r Hget Hstatus.
    by rewrite (run_status_raised _ _ _ _ _ _ _ Hget (raise_for_status_error r Hstatus)).
  - intros r e Hget Hstatus Hparse He.
    by rewrite (run_parser_raised _ _ _ _ _ _ _ Hget (raise_for_status_pass r Hstatus) Hparse), He.
Qed.

End Failures.

(** C2, as the specification words it, fails: a response with status 304
    is not a 2xx response, yet it passes the status check, and for a page
    without text [run] returns [None] and no error string; and an
    interrupt from the keyboard during the request leaves [run] as an
    exception. *)
Lemma run_non_2xx_not_converted :
  ¬ (200 ≤ 304 < 300)%Z ∧
  run (Sample.serve 304 Sample.empty_markup)
      (Requests.raise_for_status Sample.http_error_msg) Sample.parser
      init Sample.url = Ok None ∧
  exc_class Sample.interrupt = "KeyboardInterrupt" ∧
  run Sample.interrupted
      (Requests.raise_for_status Sample.http_error_msg) Sample.parser
      init Sample.url = Raise Sample.interrupt.
Proof. split; [lia|]. repeat split; vm_compute; reflexivity. Qed.

(** C1.  The regression property for short pages fails on [run] as it is
    written.  A page without text passes the fetch and yields the empty
    normalised text, and [run] leaves the function without a [return]:
    its value is [None], not a string.  A page with the short text
    [Hello world] gets the error payload of the [AttributeError], which
    does not contain the normalised text. *)
Theorem run_short_page_no_content :
  run (Sample.serve 200 Sample.empty_markup) Sample.status_check Sample.parser
      init Sample.url = Ok None ∧
  extract Sample.parser Sample.empty_markup = Ok EmptyString ∧
  run (Sample.serve 200 Sample.hello_markup) Sample.status_check Sample.parser
      init Sample.url
    = Ok (Some "Error scraping http://example.com:'generator' object has no attribute 'strip'") ∧
  page_text Sample.parser Sample.hello_markup = Ok "Hello   world" ∧
  Py.len (spec_normalize "Hello   world") = 11.
Proof. repeat split; vm_compute; reflexivity. Qed.

(** C4.  For a page whose text is one word of 4001 characters, whose
    normalised text in the words of the specification has 4001 characters,
    [run] returns the error payload of the [AttributeError] and not the
    truncated text. *)
Theorem run_long_page_is_error :
  page_text Sample.parser Sample.long_markup = Ok Sample.long_word ∧
  Py.len (spec_normalize Sample.long_word) = 4001 ∧
  run (Sample.serve 200 Sample.long_markup) Sample.status_check Sample.parser
      init Sample.url
    = Ok (Some "Error scraping http://example.com:'generator' object has no attribute 'strip'") ∧
  extract Sample.parser Sample.long_markup = Raise AttributeError_strip.
Proof. repeat split; vm_compute; reflexivity. Qed.

(** C8.  For the markup of the scenario the text of the page is
    [Hello   world] and the normalisation in the words of the specification
    gives [Hello], newline, [world]; lines 36-38 raise the [AttributeError]
    instead, and [run] returns the error payload. *)
Theorem extract_hello_world_raises :
  page_text Sample.parser Sample.hello_markup = Ok "Hello   world" ∧
  spec_normalize "Hello   world" = "Hello" +:+ newline +:+ "world" ∧
  extract Sample.parser Sample.hello_markup = Raise AttributeError_strip ∧
  run (Sample.serve 200 Sample.hello_markup) Sample.status_check Sample.parser
      init Sample.url
    = Ok (Some (error_scraping Sample.url AttributeError_strip)).
Proof. repeat split; vm_compute; reflexivity. Qed.

Lemma run_raises_no_Exception_witness :
  run (Sample.serve 404 Sample.empty_markup)
      (Requests.raise_for_status Sample.http_error_msg) Sample.parser
      init Sample.url
    = Ok (Some "Error scraping http://example.com:Client Error") ∧
  run Sample.unreachable
      (Requests.raise_for_status Sample.http_error_msg) Sample.parser
      init Sample.url
    = Ok (Some "Error scraping http://example.com:timed out") ∧
  run (Sample.serve 200 Sample.rejected_markup)
      (Requests.raise_for_status Sample.http_error_msg) Sample.parser
      init Sample.url
    = Ok (Some "Error scraping http://example.com:expected name token") ∧
  exc_is_Exception Sample.interrupt = false.
Proof.
  destruct (run_raises_no_Exception (Sample.serve 404 Sample.empty_markup)
              Sample.http_error_msg Sample.parser init Sample.url)
    as (_ & _ & Hhttp & _).
  destruct (run_raises_no_Exception Sample.unreachable
              Sample.http_error_msg Sample.parser init Sample.url)
    as (_ & Hnet & _ & _).
  destruct (run_raises_no_Exception (Sample.serve 200 Sample.rejected_markup)
              Sample.http_error_msg Sample.parser init Sample.url)
    as (_ & _ & _ & Hparse).
  destruct (run_raises_no_Exception Sample.interrupted
              Sample.http_error_msg Sample.parser init Sample.url)
    as (Hraise & _ & _ & _).
  split; [|split; [|split]].
  - apply (Hhttp (Response 404 Sample.empty_markup)); [reflexivity|simpl; lia].
  - apply (Hnet Sample.timed_out); reflexivity.
  - apply (Hparse (Response 200 Sample.rejected_markup) Sample.parser_error);
      [reflexivity|simpl; lia|reflexivity|reflexivity].
  - apply (Hraise Sample.interrupt). reflexivity.
Defined.

Lemma run_text_page_is_error_witness :
  run (Sample.serve 200 Sample.hello_markup) Sample.status_check Sample.parser
      init Sample.url
    = Ok (Some "Error scraping http://example.com:'generator' object has no attribute 'strip'").
Proof.
  destruct (run_text_page_is_error (Sample.serve 200 Sample.hello_markup)
              Sample.status_check Sample.parser init Sample.url
              (Response 200 Sample.hello_markup) "Hello   world")
    as (_ & _ & Hrun & _).
  - reflexivity.
  - reflexivity.
  - reflexivity.
  - discriminate.
  - exact Hrun.
Defined.

(** ** Lengths, slices and suffixes *)

Lemma len_app a b : Py.len (a +:+ b) = Py.len a + Py.len b.
Proof. unfold Py.len. induction a as [|c a IH]; simpl; [done|]. by rewrite IH. Qed.

Lemma len_slice_to n s : Py.len (Py.slice_to n s) = n `min` Py.len s.
Proof.
  unfold Py.len, Py.slice_to. revert s.
  induction n as [|n IH]; intros [|c s]; simpl; try done.
  by rewrite IH.
Qed.

Lemma endswith_refl p : Py.endswith p p = true.
Proof. destruct p; simpl; [done|]. by rewrite Ascii.eqb_refl, String.eqb_refl. Qed.

Lemma endswith_app p s : Py.endswith p (s +:+ p) = true.
Proof.
  induction s as [|c s IH]; simpl.
  - apply endswith_refl.
  - rewrite IH. apply orb_true_r.
Qed.

(** The bound on the text left by lines 42-43, for every text that
    reaches them. *)
Lemma truncate_bound text : len_without_marker (truncate text) ≤ max_length.
Proof.
  unfold truncate, len_without_marker. case_bool_decide as Hlen.
  - rewrite endswith_app, len_app, len_slice_to. lia.
  - destruct (Py.endswith _ _); lia.
Qed.

Lemma truncate_long text :
  max_length < Py.len text →
  truncate text = Py.slice_to max_length text +:+ truncation_marker ∧
  Py.len (Py.slice_to max_length text) = max_length.
Proof.
  intros Hlen. unfold truncate. rewrite bool_decide_eq_true_2 by done.
  split; [done|]. rewrite len_slice_to. lia.
Qed.

(** ** Lines 37-43 on the lines of a text *)

Lemma lstrip_clean s : starts_clean s = true → Py.lstrip s = s.
Proof. destruct s as [|c s]; [done|]. simpl. by intros ->%negb_true_iff. Qed.

Lemma rstrip_clean s : ends_clean s = true → Py.rstrip s = s.
Proof.
  induction s as [|c s IH]; [done|]. cbn [ends_clean Py.rstrip].
  destruct s as [|c' s].
  - intros ->%negb_true_iff. done.
  - intros H. rewrite (IH H). by rewrite andb_false_r.
Qed.

Lemma strip_clean s :
  starts_clean s = true → ends_clean s = true → Py.strip s = s.
Proof. intros Hs He. unfold Py.strip. by rewrite (lstrip_clean s Hs), rstrip_clean. Qed.

Lemma lstrip_starts_clean s :
  Py.truthy (Py.lstrip s) = true → starts_clean (Py.lstrip s) = true.
Proof.
  induction s as [|c s IH]; [done|]. cbn [Py.lstrip].
  destruct (Py.is_space c) eqn:E; [done|]. intros _. simpl. by rewrite E.
Qed.

Lemma rstrip_starts_clean s :
  starts_clean s = true → starts_clean (Py.rstrip s) = true.
Proof.
  destruct s as [|c s]; [done|]. cbn [starts_clean Py.rstrip].
  intros H. apply negb_true_iff in H as Hc. rewrite Hc. simpl. by rewrite Hc.
Qed.

Lemma rstrip_ends_clean s :
  Py.truthy (Py.rstrip s) = true → ends_clean (Py.rstrip s) = true.
Proof.
  induction s as [|c s IH]; [done|]. cbn [Py.rstrip].
  destruct (Py.rstrip s) as [|c' r] eqn:E.
  - simpl. rewrite andb_true_r. destruct (Py.is_space c) eqn:Hc; [done|].
    intros _. simpl. by rewrite Hc.
  - simpl. rewrite andb_false_r. intros _. by apply IH.
Qed.

Lemma rstrip_truthy s :
  starts_clean s = true → Py.truthy (Py.rstrip s) = true.
Proof. intros H%rstrip_starts_clean. by destruct (Py.rstrip s). Qed.

(** A phrase that is not empty once stripped is stripped to a chunk with
    clean ends. *)
Lemma strip_ends s :
  Py.truthy (Py.strip s) = true →
  starts_clean (Py.strip s) = true ∧ ends_clean (Py.strip s) = true.
Proof.
  unfold Py.strip. intros H.
  assert (Py.truthy (Py.lstrip s) = true) as Hl.
  { by destruct (Py.lstrip s). }
  split; [|by apply rstrip_ends_clean].
  by apply rstrip_starts_clean, lstrip_starts_clean.
Qed.

Lemma good_chunk_stripped s : good_chunk s → stripped_phrase s.
Proof.
  intros (_ & Hs & He). split; [by destruct s|]. by apply strip_clean.
Qed.

Lemma all_chars_app P a b :
  Py.all_chars P (a +:+ b) = Py.all_chars P a && Py.all_chars P b.
Proof. induction a as [|c a IH]; simpl; [done|]. by rewrite IH, andb_assoc. Qed.

Lemma all_chars_lstrip P s :
  Py.all_chars P s = true → Py.all_chars P (Py.lstrip s) = true.
Proof.
  induction s as [|c s IH]; [done|]. cbn [Py.lstrip].
  destruct (Py.is_space c); [|done]. simpl. intros [_ H]%andb_true_iff. by apply IH.
Qed.

Lemma all_chars_rstrip P s :
  Py.all_chars P s = true → Py.all_chars P (Py.rstrip s) = true.
Proof.
  induction s as [|c s IH]; [done|]. cbn [Py.rstrip]. simpl.
  intros [Hc H]%andb_true_iff. destruct (_ && _); [done|].
  simpl. by rewrite Hc, IH.
Qed.

Lemma all_chars_strip P s :
  Py.all_chars P s = true → Py.all_chars P (Py.strip s) = true.
Proof. intros H. by apply all_chars_rstrip, all_chars_lstrip. Qed.

Lemma all_chars_push P c fields :
  P c = true → Forall (λ f, Py.all_chars P f = true) fields →
  Forall (λ f, Py.all_chars P f = true) (Py.push c fields).
Proof.
  intros Hc [|f fs Hf Hfs]; simpl.
  - constructor; [|done]. simpl. by rewrite Hc.
  - constructor; [|done]. simpl. by rewrite Hc, Hf.
Qed.

Lemma all_chars_split P sep s :
  Py.all_chars P s = true →
  Forall (λ f, Py.all_chars P f = true) (Py.split sep s).
Proof.
  induction s as [|c s IH]; simpl.
  - by repeat constructor.
  - intros [Hc H]%andb_true_iff. destruct (Ascii.eqb c sep).
    + constructor; [done|]. by apply IH.
    + apply all_chars_push; [done|]. by apply IH.
Qed.

Lemma all_chars_slice_to P n s :
  Py.all_chars P s = true → Py.all_chars P (Py.slice_to n s) = true.
Proof.
  unfold Py.slice_to. revert s.
  induction n as [|n IH]; intros [|c s]; simpl; try done.
  intros [Hc H]%andb_true_iff. by rewrite Hc, IH.
Qed.

Lemma linebreak_cr c : Py.is_linebreak c = false → Py.is_cr c = false.
Proof.
  intros H. destruct (Py.is_cr c) eqn:E; [|done].
  apply Ascii.eqb_eq in E as ->. done.
Qed.

Lemma splitlines_chunk c :
  no_linebreak c = true → Py.truthy c = true → Py.splitlines c = [c].
Proof.
  unfold no_linebreak.
  induction c as [|x c IH]; [done|]. simpl. intros [Hx Hc]%andb_true_iff _.
  apply negb_true_iff in Hx. rewrite (linebreak_cr x Hx), Hx.
  destruct c as [|y c]; [done|]. by rewrite IH.
Qed.

Lemma splitlines_chunk_nl c rest :
  no_linebreak c = true →
  Py.splitlines (c +:+ String Py.nl rest) = c :: Py.splitlines rest.
Proof.
  unfold no_linebreak.
  induction c as [|x c IH]; [done|]. simpl. intros [Hx Hc]%andb_true_iff.
  apply negb_true_iff in Hx. rewrite (linebreak_cr x Hx), Hx. by rewrite IH.
Qed.

Lemma join_cons c c' chunks :
  Py.join newline (c :: c' :: chunks)
  = c +:+ String Py.nl (Py.join newline (c' :: chunks)).
Proof. reflexivity. Qed.

(** The lines of chunks joined by newlines are the chunks. *)
Lemma splitlines_join chunks :
  Forall good_chunk chunks → Py.splitlines (Py.join newline chunks) = chunks.
Proof.
  induction 1 as [|c chunks (Hc & Hs & _) Hchunks IH]; [done|].
  destruct chunks as [|c' chunks].
  - apply splitlines_chunk; [done|]. by destruct c.
  - by rewrite join_cons, splitlines_chunk_nl, IH.
Qed.

Lemma append_String x (a b : string) : String x a +:+ b = String x (a +:+ b).
Proof. reflexivity. Qed.

Lemma append_assoc (a b c : string) : (a +:+ b) +:+ c = a +:+ (b +:+ c).
Proof. induction a as [|x a IH]; [done|]. by rewrite !append_String, IH. Qed.

Lemma slice_to_app n a b :
  Py.slice_to n (a +:+ b) =
    if bool_decide (n ≤ Py.len a) then Py.slice_to n a
    else a +:+ Py.slice_to (n - Py.len a) b.
Proof.
  unfold Py.slice_to, Py.len. revert n.
  induction a as [|x a IH]; intros n; simpl.
  - case_bool_decide; [|by rewrite Nat.sub_0_r].
    assert (n = 0) as -> by lia. by destruct b.
  - destruct n as [|n]; [done|]. simpl. rewrite IH.
    repeat case_bool_decide; try done; lia.
Qed.

Lemma ends_clean_app a b :
  Py.truthy b = true → ends_clean (a +:+ b) = ends_clean b.
Proof.
  intros Hb. induction a as [|x a IH]; [done|].
  rewrite append_String. destruct (a +:+ b) as [|y r] eqn:E.
  - by destruct a, b.
  - by rewrite <- IH.
Qed.

(** A chunk cut short, with the dots of the marker after it. *)
Lemma good_chunk_cut n c :
  good_chunk c → good_chunk (Py.slice_to n c +:+ "...").
Proof.
  intros (Hc & Hs & _). repeat split.
  - unfold no_linebreak. rewrite all_chars_app, all_chars_slice_to; done.
  - destruct c as [|x c]; [done|]. by destruct n.
  - by rewrite ends_clean_app.
Qed.

(** The truncated text is again a sequence of chunks joined by newlines:
    whole chunks, a chunk cut short with the dots, and the last line of the
    marker. *)
Lemma truncated_join n chunks :
  Forall good_chunk chunks →
  ∃ chunks', Forall good_chunk chunks' ∧ chunks' ≠ [] ∧
    Py.slice_to n (Py.join newline chunks) +:+ truncation_marker
    = Py.join newline chunks'.
Proof.
  intros Hchunks. revert n.
  induction Hchunks as [|c chunks Hc Hchunks IH]; intros n.
  - exists ["..."; "[Content truncated due to length]"]. split; [|by destruct n].
    by repeat constructor.
  - assert (∃ chunks', Forall good_chunk chunks' ∧ chunks' ≠ [] ∧
              Py.slice_to n c +:+ truncation_marker = Py.join newline chunks')
      as Hcut.
    { exists [Py.slice_to n c +:+ "..."; "[Content truncated due to length]"].
      split; [|split; [done|]].
      - constructor; [by apply good_chunk_cut|]. by repeat constructor.
      - rewrite join_cons. unfold truncation_marker. by rewrite append_assoc. }
    destruct chunks as [|c' chunks]; [done|].
    rewrite join_cons, slice_to_app. case_bool_decide; [done|].
    destruct (n - Py.len c) as [|m] eqn:Hm; [lia|].
    destruct (IH m) as (chunks' & Hgood & Hne & Heq).
    exists (c :: chunks'). split; [by constructor|]. split; [done|].
    destruct chunks' as [|d chunks']; [done|].
    rewrite join_cons, <- Heq. rewrite append_assoc. simpl.
    unfold Py.slice_to. simpl. reflexivity.
Qed.

Lemma drain_Ok {A} (items : list A) : drain (Ok <$> items) = Ok items.
Proof. induction items as [|a items IH]; csimpl; [done|]. by rewrite IH. Qed.

(** The generator of line 37 over lines that line 36 hands over. *)
Lemma chunks_gen_Ok lines :
  chunks_gen (Ok <$> lines)
  = Ok <$> (Py.strip <$> flat_map (Py.split Py.sp) lines).
Proof.
  induction lines as [|line lines IH]; [done|].
  csimpl. rewrite IH, !fmap_app. f_equal. by rewrite <- list_fmap_compose.
Qed.

Lemma join_chunks_Ok lines :
  join_chunks (chunks_gen (Ok <$> lines))
  = Ok (Py.join newline
          (List.filter Py.truthy (Py.strip <$> flat_map (Py.split Py.sp) lines))).
Proof. unfold join_chunks. by rewrite chunks_gen_Ok, drain_Ok. Qed.

(** The chunks that line 38 keeps are clean. *)
Lemma kept_chunks_good lines :
  Forall (λ line, no_linebreak line = true) lines →
  Forall good_chunk
    (List.filter Py.truthy (Py.strip <$> flat_map (Py.split Py.sp) lines)).
Proof.
  intros Hlines. apply Forall_forall. intros c Hc.
  apply list_elem_of_In, filter_In in Hc as [Hc Htruthy].
  apply list_elem_of_In, list_elem_of_fmap in Hc as (phrase & -> & Hphrase).
  apply list_elem_of_In, in_flat_map in Hphrase as (line & Hline & Hphrase).
  rewrite Forall_forall in Hlines.
  apply list_elem_of_In, Hlines in Hline.
  pose proof (all_chars_split _ Py.sp line Hline) as Hsplit.
  rewrite Forall_forall in Hsplit.
  apply list_elem_of_In, Hsplit in Hphrase.
  destruct (strip_ends phrase Htruthy) as [Hs He].
  repeat split; [|done..]. by apply all_chars_strip.
Qed.

(** Lines 37-43 on any lines without line boundaries in them. *)
Lemma chunks_lines_stripped lines :
  Forall (λ line, no_linebreak line = true) lines →
  ∃ text, join_chunks (chunks_gen (Ok <$> lines)) = Ok text ∧
          Forall stripped_phrase (Py.splitlines (truncate text)).
Proof.
  intros Hlines%kept_chunks_good. eexists. split; [apply join_chunks_Ok|].
  unfold truncate. case_bool_decide.
  - destruct (truncated_join max_length _ Hlines) as (chunks' & Hgood & _ & ->).
    rewrite splitlines_join by done.
    eapply Forall_impl; [done|]. apply good_chunk_stripped.
  - rewrite splitlines_join by done.
    eapply Forall_impl; [done|]. apply good_chunk_stripped.
Qed.

(** The lines of [splitlines] have no line boundary in them. *)
Lemma splitlines_no_linebreak text :
  Forall (λ line, no_linebreak line = true) (Py.splitlines text).
Proof.
  assert (∀ n s, String.length s ≤ n →
                 Forall (λ line, no_linebreak line = true) (Py.splitlines s))
    as Hlen; [|by apply (Hlen (String.length text))].
  induction n as [|n IH]; intros [|c s] Hs; simpl in *; try done; [lia|].
  destruct (Py.is_cr c).
  - destruct s as [|c' s']; [by repeat constructor|]. simpl in Hs.
    destruct (Py.is_lf c'); (constructor; [done|]); apply IH; simpl; lia.
  - destruct (Py.is_linebreak c) eqn:Hc.
    + constructor; [done|]. apply IH. lia.
    + apply all_chars_push; [by rewrite Hc|]. apply IH. lia.
Qed.

Lemma stripped_lines_no_linebreak text :
  Forall (λ line, no_linebreak line = true) (Py.strip <$> Py.splitlines text).
Proof.
  apply Forall_fmap. eapply Forall_impl; [apply splitlines_no_linebreak|].
  intros line H. by apply all_chars_strip.
Qed.

(** [spec_normalize] is what lines 37-38 give for the stripped lines of the
    text. *)
Lemma join_chunks_stripped_lines text :
  join_chunks (chunks_gen (Ok <$> (Py.strip <$> Py.splitlines text)))
  = Ok (spec_normalize text).
Proof. by rewrite join_chunks_Ok. Qed.

Section Extraction.
Variable BeautifulSoup : string → string → res soup.

Abbreviation extract' := (extract BeautifulSoup).

(** The only text the [try] block runs through with is the empty one. *)
Lemma extract_Ok_inv markup out :
  extract' markup = Ok out →
  page_text BeautifulSoup markup = Ok EmptyString ∧ out = EmptyString.
Proof.
  unfold extract.
  destruct (page_text BeautifulSoup markup) as [page|e]; [|done]. simpl.
  destruct (normalize page) as [t|e] eqn:E; [|done].
  apply normalize_Ok_inv in E as [-> ->]. simpl. by intros [= <-].
Qed.

(** C6.  Every line of a text that the extraction yields is a non-empty
    phrase without white space at its ends.  Lines 37-43 see to it for
    whatever lines the generator of line 36 hands over, as long as none
    has a line boundary in it (the lines of [splitlines] have none). *)
Theorem extract_lines_stripped :
  (∀ markup out, extract' markup = Ok out →
                 Forall stripped_phrase (Py.splitlines out)) ∧
  (∀ lines, Forall (λ line, no_linebreak line = true) lines →
            ∃ text, join_chunks (chunks_gen (Ok <$> lines)) = Ok text ∧
                    Forall stripped_phrase (Py.splitlines (truncate text))).
Proof.
  split; [|apply chunks_lines_stripped].
  intros markup out [_ ->]%extract_Ok_inv. constructor.
Qed.

(** C7.  The text left by the truncation step, the marker not counted when
    the text ends with it, has at most 4000 characters: for every text
    that reaches lines 42-43, and so for every text the extraction
    yields. *)
Theorem extract_length_bound :
  max_length = 4000 ∧
  (∀ text, len_without_marker (truncate text) ≤ max_length) ∧
  (∀ markup out, extract' markup = Ok out → len_without_marker out ≤ max_length).
Proof.
  split; [done|]. split; [apply truncate_bound|].
  intros markup out. unfold extract.
  destruct (page_text BeautifulSoup markup) as [page|e]; [|done]. simpl.
  destruct (normalize page) as [t|e]; [|done]. simpl. intros [= <-].
  apply truncate_bound.
Qed.

End Extraction.

(** ** The message history *)

Section History.
Implicit Types (st : App.session_state) (m : message).

Lemma init_messages_spec st :
  App.init_messages st = (<["messages" := App.history st]> st, Ok ()).
Proof.
  unfold App.init_messages, App.history.
  destruct (st !! "messages") as [l|] eqn:E; simpl; [|done].
  by rewrite insert_id.
Qed.

Lemma append_message_insert st l m :
  App.append_message m (<["messages" := l]> st)
  = (<["messages" := l ++ [m]]> st, Ok ()).
Proof.
  unfold App.append_message. rewrite lookup_insert_eq.
  by rewrite insert_insert_eq.
Qed.


(** A run of the script without a question to process leaves the history
    as it is. *)
Lemma script_run_idle st user_question agent :
  (user_question = None ∨ user_question = Some EmptyString ∨ agent = None) →
  App.history (App.script_run user_question agent st).1 = App.history st.
Proof.
  intros Hidle. unfold App.script_run, mbind, App.script_bind.
  rewrite init_messages_spec.
  assert (App.history (<["messages" := App.history st]> st) = App.history st) as Hh.
  { unfold App.history at 1. by rewrite lookup_insert_eq. }
  destruct Hidle as [-> | [-> | ->]]; [done| |by destruct user_question].
  by destruct agent.
Qed.


End History.

(** ** Substrings of joined and stripped strings *)

Lemma prefix_empty s : String.prefix EmptyString s = true.
Proof. by destruct s. Qed.

Lemma prefix_of_empty needle :
  String.prefix needle EmptyString = true → needle = EmptyString.
Proof. by destruct needle. Qed.

Lemma contains_empty_inv needle :
  Py.contains needle EmptyString = true → needle = EmptyString.
Proof. simpl. rewrite orb_false_r. apply prefix_of_empty. Qed.

Lemma contains_of_empty s : Py.contains EmptyString s = true.
Proof. by destruct s. Qed.

Lemma contains_cons needle c s :
  Py.contains needle s = true → Py.contains needle (String c s) = true.
Proof. intros H. cbn [Py.contains]. rewrite H. apply orb_true_r. Qed.

(** A needle without the character [c] that starts [a c b] starts [a]. *)
Lemma prefix_app_sep needle c a b :
  has_char c needle = false →
  String.prefix needle (a +:+ String c b) = true →
  String.prefix needle a = true.
Proof.
  revert a. induction needle as [|x needle IH]; intros a Hc; [intros _; apply prefix_empty|].
  cbn [has_char] in Hc. apply orb_false_elim in Hc as [Hx Hc].
  destruct a as [|y a]; simpl.
  - destruct (ascii_dec x c) as [->|]; [|done]. by rewrite Ascii.eqb_refl in Hx.
  - destruct (ascii_dec x y); [|done]. by apply IH.
Qed.

Lemma contains_app_sep needle c a b :
  has_char c needle = false →
  Py.contains needle (a +:+ String c b) = true →
  Py.contains needle a = true ∨ Py.contains needle b = true.
Proof.
  intros Hc. induction a as [|y a IH]; cbn [String.append Py.contains].
  - intros [H|H]%orb_true_iff; [left|by right].
    apply (prefix_app_sep _ _ EmptyString) in H; [|done].
    by rewrite H.
  - intros [H|H]%orb_true_iff.
    + left. apply (prefix_app_sep _ _ (String y a)) in H; [|done].
      by rewrite H.
    + destruct (IH H) as [Ha|Hb]; [left|by right].
      rewrite Ha. apply orb_true_r.
Qed.

(** A non-empty needle without a newline that occurs in the lines joined
    by newlines occurs in one of them. *)
Lemma contains_join needle parts :
  needle ≠ EmptyString →
  has_char Py.nl needle = false →
  Py.contains needle (Py.join newline parts) = true →
  ∃ s, s ∈ parts ∧ Py.contains needle s = true.
Proof.
  intros Hne Hnl. induction parts as [|p parts IH].
  - by intros ?%contains_empty_inv.
  - destruct parts as [|q parts].
    + intros H. exists p. split; [apply list_elem_of_here|done].
    + change (Py.join newline (p :: q :: parts))
        with (p +:+ String Py.nl (Py.join newline (q :: parts))).
      intros H'. destruct (contains_app_sep _ _ _ _ Hnl H') as [H|H].
      * exists p. split; [apply list_elem_of_here|done].
      * destruct (IH H) as (s & Hs & Hin). exists s. split; [by apply list_elem_of_further|done].
Qed.

Lemma contains_lstrip needle s :
  Py.contains needle (Py.lstrip s) = true → Py.contains needle s = true.
Proof.
  induction s as [|c s IH]; [done|]. cbn [Py.lstrip].
  destruct (Py.is_space c); [|done]. intros H. by apply contains_cons, IH.
Qed.

Lemma prefix_rstrip needle s :
  String.prefix needle (Py.rstrip s) = true → String.prefix needle s = true.
Proof.
  revert needle. induction s as [|c s IH]; intros needle; [done|].
  cbn [Py.rstrip]. destruct (Py.is_space c && negb (Py.truthy (Py.rstrip s))).
  - intros ->%prefix_of_empty. apply prefix_empty.
  - destruct needle as [|x needle]; [done|]. simpl.
    destruct (ascii_dec x c); [|done]. apply IH.
Qed.

Lemma contains_rstrip needle s :
  Py.contains needle (Py.rstrip s) = true → Py.contains needle s = true.
Proof.
  induction s as [|c s IH]; [done|]. cbn [Py.rstrip].
  destruct (Py.is_space c && negb (Py.truthy (Py.rstrip s))) eqn:E.
  - intros ->%contains_empty_inv. apply contains_of_empty.
  - cbn [Py.contains]. intros [H|H]%orb_true_iff.
    + assert (String.prefix needle (Py.rstrip (String c s)) = true) as H'.
      { cbn [Py.rstrip]. by rewrite E. }
      apply prefix_rstrip in H'. by rewrite H'.
    + rewrite (IH H). apply orb_true_r.
Qed.

(** What is in a stripped string is in the string. *)
Lemma contains_strip needle s :
  Py.contains needle (Py.strip s) = true → Py.contains needle s = true.
Proof. intros H. by apply contains_lstrip, contains_rstrip. Qed.

(** ** The elements left in the tree *)

Lemma discard_no_tag names n :
  ∀ n', discard names n = Some n' → ¬ has_tag names n'.
Proof.
  induction n as [s|s|name contents IH] using node_ind; intros n' Hd; simpl in Hd.
  - injection Hd as <-. inversion 1.
  - injection Hd as <-. inversion 1.
  - case_bool_decide as Hname; [done|]. injection Hd as <-.
    rewrite Forall_forall in IH.
    inversion 1 as [? ? Hin|? ? x Hx Hhas]; subst; [done|].
    apply list_elem_of_omap in Hx as (c & Hc & Hdc).
    by apply (IH c Hc x Hdc).
Qed.

Lemma strings_discard names s n :
  (∃ n', discard names n = Some n' ∧ s ∈ all_strings n')
  ↔ occurs_outside names s n.
Proof.
  induction n as [t|t|name contents IH] using node_ind.
  - split.
    + intros (n' & [= <-] & Hin). apply list_elem_of_singleton in Hin as ->.
      constructor.
    + inversion 1; subst. eexists.
      split; [reflexivity|]. by apply list_elem_of_singleton.
  - split.
    + intros (n' & [= <-] & Hin). by apply elem_of_nil in Hin.
    + inversion 1.
  - rewrite Forall_forall in IH. split.
    + intros (n' & Hd & Hin). simpl in Hd.
      case_bool_decide as Hname; [done|]. injection Hd as <-.
      cbn [all_strings] in Hin.
      apply list_elem_of_In, in_flat_map in Hin as (x & Hx & Hsx).
      apply list_elem_of_In, list_elem_of_omap in Hx as (c & Hc & Hdc).
      apply (occurs_below _ _ _ _ c); [done..|].
      apply IH; [done|]. exists x. split; [done|]. by apply list_elem_of_In.
    + inversion 1 as [|? ? c Hname Hc Hocc]; subst.
      apply IH in Hocc as (x & Hdc & Hsx); [|done].
      exists (Tag name (omap (discard names) contents)). split.
      * simpl. by rewrite bool_decide_eq_false_2.
      * cbn [all_strings]. apply list_elem_of_In, in_flat_map.
        exists x. split; apply list_elem_of_In; [|done].
        apply list_elem_of_omap. by exists c.
Qed.

Lemma extract_all_no_tag names doc n :
  n ∈ extract_all names doc → ¬ has_tag names n.
Proof.
  intros (c & _ & Hd)%list_elem_of_omap. by apply (discard_no_tag names c).
Qed.

Lemma extract_all_strings names doc s :
  s ∈ flat_map all_strings (extract_all names doc)
  ↔ ∃ n, n ∈ doc ∧ occurs_outside names s n.
Proof.
  unfold extract_all. rewrite list_elem_of_In, in_flat_map. split.
  - intros (x & Hx & Hsx).
    apply list_elem_of_In, list_elem_of_omap in Hx as (c & Hc & Hdc).
    exists c. split; [done|]. apply strings_discard.
    exists x. split; [done|]. by apply list_elem_of_In.
  - intros (c & Hc & Hocc). apply strings_discard in Hocc as (x & Hdc & Hsx).
    exists x. split; apply list_elem_of_In; [|done].
    apply list_elem_of_omap. by exists c.
Qed.

(** A needle found in the text of [get_text] is in one of the strings of
    the tree. *)
Lemma get_text_contains needle doc :
  needle ≠ EmptyString →
  has_char Py.nl needle = false →
  Py.contains needle (get_text newline true doc) = true →
  ∃ s, s ∈ flat_map all_strings doc ∧ Py.contains needle s = true.
Proof.
  intros Hne Hnl Hin. unfold get_text in Hin.
  apply contains_join in Hin as (s & Hs & Hin); [|done..].
  apply list_elem_of_In, filter_In in Hs as [Hs _].
  apply list_elem_of_In, list_elem_of_fmap in Hs as (s0 & -> & Hs0).
  exists s0. split; [done|]. by apply contains_strip.
Qed.

Section Discarding.
Variable BeautifulSoup : string → string → res soup.

(** C5.  The elements named script, style, footer, nav and aside are
    discarded with their subtrees before the text is taken: no such tag is
    left in the tree, the strings left are those with no such tag around
    them, and a word that occurs only inside such elements, as [secret]
    in a script block, is neither in the text of the page nor in a text
    that the extraction yields. *)
Theorem page_text_discards markup doc :
  BeautifulSoup markup "html.parser" = Ok doc →
  discarded = ["script"; "style"; "footer"; "nav"; "aside"] ∧
  (∀ n, n ∈ extract_all discarded doc → ¬ has_tag discarded n) ∧
  (∀ s, s ∈ flat_map all_strings (extract_all discarded doc)
        ↔ ∃ n, n ∈ doc ∧ occurs_outside discarded s n) ∧
  (∀ needle,
     needle ≠ EmptyString →
     has_char Py.nl needle = false →
     (∀ n s, n ∈ doc → occurs_outside discarded s n →
             Py.contains needle s = false) →
     (∃ page, page_text BeautifulSoup markup = Ok page ∧
              Py.contains needle page = false) ∧
     ∀ out, extract BeautifulSoup markup = Ok out →
            Py.contains needle out = false).
Proof.
  intros Hparse.
  split; [done|]. split; [intros n; apply extract_all_no_tag|].
  split; [intros s; apply extract_all_strings|].
  intros needle Hne Hnl Hout. split.
  - eexists. split; [by apply page_text_Ok|].
    apply not_true_is_false. intros Hin.
    apply get_text_contains in Hin as (s & Hs & Hin); [|done..].
    apply extract_all_strings in Hs as (n & Hn & Hocc).
    by rewrite (Hout n s Hn Hocc) in Hin.
  - intros out [_ ->]%extract_Ok_inv.
    apply not_true_is_false. by intros ?%contains_empty_inv.
Qed.

End Discarding.

(** ** The theorems at sample inputs *)

Lemma page_text_discards_witness :
  ∃ page, page_text Sample.parser Sample.secret_markup = Ok page ∧
          Py.contains "secret" page = false.
Proof.
  destruct (page_text_discards Sample.parser Sample.secret_markup
              Sample.secret_doc eq_refl)
    as (_ & _ & Hstrings & Hneedle).
  destruct (Hneedle "secret") as [Hpage _]; [done|reflexivity| |exact Hpage].
  intros n s Hn Hocc.
  assert (s ∈ flat_map all_strings (extract_all discarded Sample.secret_doc))
    as Hs by (apply Hstrings; eauto).
  vm_compute in Hs. apply list_elem_of_singleton in Hs as ->. reflexivity.
Defined.

Lemma extract_lines_stripped_witness :
  Forall stripped_phrase (Py.splitlines EmptyString) ∧
  ∃ text, join_chunks (chunks_gen [Ok " Hello   world "; Ok "again"]) = Ok text ∧
          Forall stripped_phrase (Py.splitlines (truncate text)).
Proof.
  destruct (extract_lines_stripped Sample.parser) as [Hextract Hlines]. split.
  - apply (Hextract Sample.empty_markup EmptyString). reflexivity.
  - apply (Hlines [" Hello   world "; "again"]). by repeat constructor.
Defined.

Lemma extract_length_bound_witness :
  len_without_marker EmptyString ≤ max_length.
Proof.
  destruct (extract_length_bound Sample.parser) as (_ & _ & Hbound).
  apply (Hbound Sample.empty_markup EmptyString). reflexivity.
Defined.


(** * Further properties of the scraper *)

Section RunOutcomes.
Variable requests_get : string → list (string * string) → Z → res response.
Variable raise_for_status : response → res unit.
Variable BeautifulSoup : string → string → res soup.

Abbreviation run := (run requests_get raise_for_status BeautifulSoup).

(** The ways [run] can end, by what the libraries did. *)
Lemma run_cases self url :
  (∃ e, (requests_get url headers 10 = Raise e ∨
         (∃ r, requests_get url headers 10 = Ok r ∧ raise_for_status r = Raise e) ∨
         (∃ r, requests_get url headers 10 = Ok r ∧ raise_for_status r = Ok () ∧
               BeautifulSoup (text r) "html.parser" = Raise e)) ∧
        run self url =
          if exc_is_Exception e then Ok (Some (error_scraping url e)) else Raise e) ∨
  (∃ r page, requests_get url headers 10 = Ok r ∧ raise_for_status r = Ok () ∧
             page_text BeautifulSoup (text r) = Ok page ∧
             run self url =
               if Py.truthy page
               then Ok (Some (error_scraping url AttributeError_strip))
               else Ok None).
Proof.
  destruct (requests_get url headers 10) as [r|e] eqn:Hget.
  - destruct (raise_for_status r) as [[]|e] eqn:Hst.
    + destruct (BeautifulSoup (text r) "html.parser") as [doc|e] eqn:Hparse.
      * right. exists r. eexists. repeat split; [done|by apply page_text_Ok|].
        by rewrite (run_fetched _ _ _ _ _ _ Hget Hst), (page_text_Ok _ _ _ Hparse).
      * left. exists e. split; [right; right; by exists r|].
        by eapply run_parser_raised.
    + left. exists e. split; [right; left; by exists r|]. by eapply run_status_raised.
  - left. exists e. split; [by left|]. by apply run_get_raised.
Qed.

(** X1.  Whatever the request does, a string that [run] returns is an
    error payload: [run] never returns the text of a page. *)
Theorem run_string_is_error self url v :
  run self url = Ok (Some v) →
  ∃ e, exc_is_Exception e = true ∧ v = error_scraping url e.
Proof.
  destruct (run_cases self url) as [(e & _ & ->)|(r & page & _ & _ & _ & ->)].
  - destruct (exc_is_Exception e) eqn:E; [|done]. intros [= <-]. by exists e.
  - destruct (Py.truthy _); [|done]. intros [= <-]. by exists AttributeError_strip.
Qed.

(** X3.  An exception that is not an instance of [Exception], raised by
    the request, by the status check or by the parser, is not caught:
    [run] raises it. *)
Theorem run_propagates_non_Exception self url e :
  exc_is_Exception e = false →
  (requests_get url headers 10 = Raise e ∨
   (∃ r, requests_get url headers 10 = Ok r ∧ raise_for_status r = Raise e) ∨
   (∃ r, requests_get url headers 10 = Ok r ∧ raise_for_status r = Ok () ∧
         BeautifulSoup (text r) "html.parser" = Raise e)) →
  run self url = Raise e.
Proof.
  intros He [Hget|[(r & Hget & Hst)|(r & Hget & Hst & Hparse)]].
  - by rewrite (run_get_raised _ _ _ _ _ _ Hget), He.
  - by rewrite (run_status_raised _ _ _ _ _ _ _ Hget Hst), He.
  - by rewrite (run_parser_raised _ _ _ _ _ _ _ Hget Hst Hparse), He.
Qed.

End RunOutcomes.

(** ** Pages without text *)

Lemma truthy_app a b : Py.truthy a = true → Py.truthy (a +:+ b) = true.
Proof. by destruct a. Qed.

Lemma join_truthy sep p parts :
  Py.truthy p = true → Py.truthy (Py.join sep (p :: parts)) = true.
Proof. intros Hp. destruct parts; [done|]. by apply truthy_app. Qed.

Lemma filter_truthy_nil strings :
  List.filter Py.truthy strings = [] ↔
  ∀ s, s ∈ strings → Py.truthy s = false.
Proof.
  induction strings as [|s strings IH]; simpl.
  - split; [|done]. by intros _ s ?%elem_of_nil.
  - destruct (Py.truthy s) eqn:E.
    + split; [done|]. intros H. specialize (H s (list_elem_of_here _ _)). congruence.
    + rewrite IH. split.
      * intros H s' [->|?]%elem_of_cons; auto.
      * intros H s' ?. apply H. by apply list_elem_of_further.
Qed.

Lemma truthy_false s : Py.truthy s = false ↔ s = EmptyString.
Proof. by destruct s. Qed.

(** [get_text] with [strip] is empty exactly when every string of the
    tree is made of white space. *)
Lemma get_text_empty_iff separator doc :
  get_text separator true doc = EmptyString ↔
  ∀ s, s ∈ flat_map all_strings doc → Py.strip s = EmptyString.
Proof.
  unfold get_text.
  destruct (List.filter Py.truthy (Py.strip <$> flat_map all_strings doc))
    as [|p parts] eqn:E.
  - split; [intros _|done]. intros s Hs.
    apply truthy_false. eapply filter_truthy_nil; [done|].
    by apply list_elem_of_fmap_2.
  - assert (Py.truthy p = true) as Hp.
    { assert (In p (p :: parts)) as Hin by by left.
      rewrite <- E in Hin. by apply filter_In in Hin as [_ ?]. }
    split.
    + intros H. apply (join_truthy separator p parts) in Hp. by rewrite H in Hp.
    + intros H. assert (In p (p :: parts)) as Hin by by left.
      rewrite <- E in Hin. apply filter_In in Hin as [Hin _].
      apply list_elem_of_In, list_elem_of_fmap in Hin as (s & -> & Hs).
      by rewrite (H s Hs) in Hp.
Qed.

Section NoText.
Variable requests_get : string → list (string * string) → Z → res response.
Variable raise_for_status : response → res unit.
Variable BeautifulSoup : string → string → res soup.

(** X2.  After a request that succeeded and passed the status check, and
    for a body that the parser accepted, [run] returns [None], no string at
    all, exactly when every text string of the page outside the discarded
    elements is made of white space. *)
Theorem run_None_iff_no_text self url r doc :
  requests_get url headers 10 = Ok r →
  raise_for_status r = Ok () →
  BeautifulSoup (text r) "html.parser" = Ok doc →
  run requests_get raise_for_status BeautifulSoup self url = Ok None ↔
  ∀ n s, n ∈ doc → occurs_outside discarded s n → Py.strip s = EmptyString.
Proof.
  intros Hget Hst Hparse.
  rewrite (run_fetched _ _ _ _ _ _ Hget Hst), (page_text_Ok _ _ _ Hparse).
  assert (get_text newline true (extract_all discarded doc) = EmptyString ↔
          ∀ n s, n ∈ doc → occurs_outside discarded s n →
                 Py.strip s = EmptyString) as <-.
  { rewrite get_text_empty_iff. split.
    - intros H n s Hn Hocc. apply H, extract_all_strings. eauto.
    - intros H s (n & Hn & Hocc)%extract_all_strings. eauto. }
  destruct (get_text newline true (extract_all discarded doc)); simpl; split; done.
Qed.

End NoText.

(** ** Truncation *)

Lemma slice_to_all n s : Py.len s ≤ n → Py.slice_to n s = s.
Proof.
  unfold Py.len, Py.slice_to. revert s.
  induction n as [|n IH]; intros [|c s]; simpl; try done; [lia|].
  intros H. rewrite IH; [done|lia].
Qed.

Lemma slice_to_slice_to n s : Py.slice_to n (Py.slice_to n s) = Py.slice_to n s.
Proof. apply slice_to_all. rewrite len_slice_to. lia. Qed.

(** X4.  The truncated text starts with the same 4000 characters as the
    text, and truncating it again changes nothing. *)
Theorem truncate_idempotent text :
  Py.slice_to max_length (truncate text) = Py.slice_to max_length text ∧
  truncate (truncate text) = truncate text.
Proof.
  assert (0 < Py.len truncation_marker) as Hm by (vm_compute; lia).
  unfold truncate. case_bool_decide as Hlen; [|by rewrite bool_decide_eq_false_2].
  assert (Py.len (Py.slice_to max_length text) = max_length) as Hs.
  { rewrite len_slice_to. lia. }
  assert (Py.slice_to max_length (Py.slice_to max_length text +:+ truncation_marker)
          = Py.slice_to max_length text) as Hpre.
  { rewrite slice_to_app, bool_decide_eq_true_2 by lia. apply slice_to_slice_to. }
  split; [done|].
  rewrite bool_decide_eq_true_2 by (rewrite len_app; lia). by rewrite Hpre.
Qed.

(** ** Lines 37-38 *)

Lemma split_no_separator sep s :
  Forall (λ f, Py.all_chars (λ c, negb (Ascii.eqb c sep)) f = true) (Py.split sep s).
Proof.
  induction s as [|c s IH]; simpl; [by repeat constructor|].
  destruct (Ascii.eqb c sep) eqn:E; [by constructor|].
  apply all_chars_push; [by rewrite E|done].
Qed.

Lemma all_chars_join P parts :
  P Py.nl = true →
  Forall (λ f, Py.all_chars P f = true) parts →
  Py.all_chars P (Py.join newline parts) = true.
Proof.
  intros Hnl. induction 1 as [|p parts Hp Hparts IH]; [done|].
  destruct parts as [|q parts]; [done|].
  rewrite join_cons, all_chars_app, Hp. cbn [Py.all_chars andb]. by rewrite Hnl, IH.
Qed.

Lemma has_char_all_chars c s :
  Py.all_chars (λ x, negb (Ascii.eqb x c)) s = true → has_char c s = false.
Proof.
  induction s as [|x s IH]; simpl; [done|].
  intros [Hx Hs]%andb_true_iff. apply negb_true_iff in Hx. by rewrite Hx, IH.
Qed.

(** X5.  Whatever lines the generator of line 36 hands over, the text that
    lines 37-38 make of them has no space in it: every run of characters
    between spaces is on a line of its own. *)
Theorem normalized_text_has_no_space lines :
  ∃ text, join_chunks (chunks_gen (Ok <$> lines)) = Ok text ∧
          has_char Py.sp text = false.
Proof.
  eexists. split; [apply join_chunks_Ok|].
  apply has_char_all_chars, all_chars_join; [done|].
  apply Forall_forall. intros c Hc.
  apply list_elem_of_In, filter_In in Hc as [Hc _].
  apply list_elem_of_In, list_elem_of_fmap in Hc as (phrase & -> & Hphrase).
  apply list_elem_of_In, in_flat_map in Hphrase as (line & _ & Hphrase).
  pose proof (split_no_separator Py.sp line) as Hsplit.
  rewrite Forall_forall in Hsplit.
  apply all_chars_strip, Hsplit. by apply list_elem_of_In.
Qed.

Lemma drain_raises {A} (items : list A) e rest :
  drain ((Ok <$> items) ++ Raise e :: rest) = Raise e.
Proof. induction items as [|a items IH]; csimpl; [done|]. by rewrite IH. Qed.

Lemma chunks_gen_raises lines e rest :
  chunks_gen ((Ok <$> lines) ++ Raise e :: rest)
  = (Ok <$> (Py.strip <$> flat_map (Py.split Py.sp) lines)) ++ [Raise e].
Proof.
  induction lines as [|line lines IH]; [done|].
  csimpl. rewrite IH, !fmap_app, <- app_assoc. f_equal.
  by rewrite <- list_fmap_compose.
Qed.

(** X6.  When the generator of line 36 raises after any number of lines,
    joining the chunks raises that exception: the lines before it are
    lost and what comes after it is not looked at. *)
Theorem join_chunks_raises lines e rest :
  join_chunks (chunks_gen ((Ok <$> lines) ++ Raise e :: rest)) = Raise e.
Proof.
  unfold join_chunks.
  rewrite chunks_gen_raises, (drain_raises _ e []). reflexivity.
Qed.

(** ** The loop that discards elements *)

Lemma discard_Tag names name contents :
  discard names (Tag name contents) =
    if bool_decide (name ∈ names) then None
    else Some (Tag name (omap (discard names) contents)).
Proof. reflexivity. Qed.

Lemma omap_fixed {A} (f : A → option A) l :
  Forall (λ a, ∀ a', f a = Some a' → f a' = Some a') l →
  omap f (omap f l) = omap f l.
Proof.
  induction 1 as [|a l Ha _ IH]; [done|].
  csimpl. destruct (f a) as [a'|] eqn:E; [|done].
  csimpl. by rewrite (Ha a' eq_refl), IH.
Qed.

Lemma discard_fixed names n :
  ∀ n', discard names n = Some n' → discard names n' = Some n'.
Proof.
  induction n as [s|s|name contents IH] using node_ind; intros n'.
  - by intros [= <-].
  - by intros [= <-].
  - rewrite discard_Tag. case_bool_decide as Hname; [done|]. intros [= <-].
    rewrite discard_Tag, bool_decide_eq_false_2 by done.
    by rewrite omap_fixed.
Qed.

(** X7.  Running the loop of lines 31-32 a second time changes nothing. *)
Theorem extract_all_idempotent names doc :
  extract_all names (extract_all names doc) = extract_all names doc.
Proof.
  unfold extract_all. apply omap_fixed, Forall_forall.
  intros n _. apply discard_fixed.
Qed.

(** * Further properties of the chat script *)

Section Script.
Implicit Types (st : App.session_state) (m : message).

Lemma history_insert st l : App.history (<["messages" := l]> st) = l.
Proof. unfold App.history. by rewrite lookup_insert_eq. Qed.

(** [answer_question] for every outcome of the agent. *)
Lemma answer_question_cases st l (agent : App.agent) question :
  App.answer_question agent question (<["messages" := l]> st) =
  match agent question with
  | Ok response =>
      (<["messages" := l ++ [Message "user" question;
                             Message "assistant" response]]> st, Ok ())
  | Raise e =>
      if exc_is_Exception e
      then (<["messages" := l ++ [Message "user" question;
                                  Message "assistant"
                                    ("An error occured " +:+ exc_str e)]]> st, Ok ())
      else (<["messages" := l ++ [Message "user" question]]> st, Raise e)
  end.
Proof.
  unfold App.answer_question.
  unfold mbind, App.script_bind. rewrite append_message_insert.
  unfold App.try_except, mbind, App.script_bind, App.call.
  destruct (agent question) as [response|e] eqn:E.
  - rewrite append_message_insert. by rewrite <- app_assoc.
  - destruct (exc_is_Exception e); [|done].
    rewrite append_message_insert. by rewrite <- app_assoc.
Qed.

Lemma script_run_cases st user_question agent :
  App.script_run user_question agent st =
  match user_question, agent with
  | Some question, Some agent =>
      if Py.truthy question
      then App.answer_question agent question (<["messages" := App.history st]> st)
      else (<["messages" := App.history st]> st, Ok ())
  | _, _ => (<["messages" := App.history st]> st, Ok ())
  end.
Proof.
  unfold App.script_run, mbind, App.script_bind at 1.
  rewrite init_messages_spec.
  destruct user_question as [question|], agent as [agent|]; try done.
  by destruct (Py.truthy question).
Qed.

(** X8.  Whatever the question, the agent and the outcome of the agent, a
    run of the script leaves the stored messages in place and in order and
    puts at most two messages after them, the question first; the other
    entries of the session state stay as they are. *)
Theorem history_only_grows st user_question agent :
  ∃ suffix,
    App.history (App.script_run user_question agent st).1
      = App.history st ++ suffix ∧
    (suffix = [] ∨
     ∃ question, user_question = Some question ∧
       (suffix = [Message "user" question] ∨
        ∃ reply, suffix = [Message "user" question; Message "assistant" reply])) ∧
    ∀ key, key ≠ "messages" →
           (App.script_run user_question agent st).1 !! key = st !! key.
Proof.
  rewrite script_run_cases.
  assert (∃ suffix,
            App.history (<["messages" := App.history st]> st) = App.history st ++ suffix ∧
            (suffix = [] ∨
             ∃ question, user_question = Some question ∧
               (suffix = [Message "user" question] ∨
                ∃ reply, suffix = [Message "user" question; Message "assistant" reply])) ∧
            ∀ key, key ≠ "messages" →
                   (<["messages" := App.history st]> st) !! key = st !! key) as Hidle.
  { exists []. rewrite history_insert, app_nil_r. split; [done|]. split; [by left|].
    intros key Hkey. by rewrite lookup_insert_ne. }
  destruct user_question as [question|], agent as [agent|]; try done.
  destruct (Py.truthy question); [|done].
  rewrite answer_question_cases.
  destruct (agent question) as [response|e]; [|destruct (exc_is_Exception e)]; simpl;
    eexists; rewrite history_insert;
    (split; [reflexivity|]);
    (split; [right; exists question; split; [done|]; eauto
            |intros key Hkey; by rewrite lookup_insert_ne]).
Qed.

(** X9.  The history after a run is the history before it exactly when
    there was nothing to process: no question, an empty question, or no
    agent. *)
Theorem history_unchanged_iff st user_question agent :
  App.history (App.script_run user_question agent st).1 = App.history st ↔
  user_question = None ∨ user_question = Some EmptyString ∨ agent = None.
Proof.
  split; [|apply script_run_idle].
  rewrite script_run_cases.
  destruct user_question as [question|]; [|by left].
  destruct agent as [agent|]; [|by right; right].
  destruct question as [|c question]; [by right; left|].
  cbn [Py.truthy]. rewrite answer_question_cases. intros H. exfalso.
  assert (∀ l suffix : list message, l = l ++ suffix → suffix = []) as Happ.
  { intros l suffix Hl. apply (f_equal length) in Hl.
    rewrite length_app in Hl. destruct suffix; [done|]. simpl in Hl. lia. }
  destruct (agent (String c question)) as [response|e];
    [|destruct (exc_is_Exception e)]; simpl in H;
    rewrite history_insert in H; symmetry in H; by apply Happ in H.
Qed.

(** X10.  When the agent raises an exception that is not an instance of
    [Exception], the question stays in the history without a reply and
    the exception leaves the script. *)
Theorem script_run_interrupted st (agent : App.agent) question e :
  Py.truthy question = true →
  agent question = Raise e →
  exc_is_Exception e = false →
  App.script_run (Some question) (Some agent) st
  = (<["messages" := App.history st ++ [Message "user" question]]> st, Raise e).
Proof.
  intros Hq Hagent He.
  by rewrite script_run_cases, Hq, answer_question_cases, Hagent, He.
Qed.

Lemma paired_app l question reply :
  paired l →
  paired (l ++ [Message "user" question; Message "assistant" reply]).
Proof.
  induction 1 as [|q r l Hl IH]; simpl; [by repeat constructor|].
  by constructor.
Qed.

(** X11.  A history made of questions, each followed by its reply, is
    still one after a run of the script, as long as the agent raises only
    instances of [Exception]. *)
Theorem script_run_keeps_pairs st user_question agent :
  (∀ (a : App.agent) question e,
     agent = Some a → a question = Raise e → exc_is_Exception e = true) →
  paired (App.history st) →
  paired (App.history (App.script_run user_question agent st).1).
Proof.
  intros Hexc Hpaired. rewrite script_run_cases.
  destruct user_question as [question|], agent as [agent|];
    try by (cbn [fst]; rewrite history_insert).
  destruct (Py.truthy question); [|by cbn [fst]; rewrite history_insert].
  rewrite answer_question_cases.
  destruct (agent question) as [response|e] eqn:E.
  - cbn [fst]. rewrite history_insert. by apply paired_app.
  - rewrite (Hexc agent question e eq_refl E). cbn [fst].
    rewrite history_insert. by apply paired_app.
Qed.

(** X12.  When building the agent raises, a run of the page stores
    nothing, whatever was submitted: the history is as before, and the
    script goes on to its end when the exception is an instance of
    [Exception] and raises it otherwise. *)
Theorem page_agent_failed st user_question e :
  App.history (App.page (Raise e) user_question st).1 = App.history st ∧
  (App.page (Raise e) user_question st).2
    = (if exc_is_Exception e then Ok () else Raise e).
Proof.
  assert (App.page (Raise e) user_question st
          = (<["messages" := App.history st]> st,
             if exc_is_Exception e then Ok () else Raise e)) as ->.
  { unfold App.page, App.build_agent, App.try_except, App.call.
    unfold mbind, App.script_bind. rewrite init_messages_spec.
    destruct (exc_is_Exception e); [|done]. by destruct user_question. }
  split; [apply history_insert|done].
Qed.

End Script.

(** ** The further properties at sample inputs *)

Lemma run_string_is_error_witness :
  ∃ e, exc_is_Exception e = true ∧
       "Error scraping http://example.com:HTTP error status"
       = error_scraping Sample.url e.
Proof.
  apply (run_string_is_error (Sample.serve 404 Sample.empty_markup)
           Sample.status_check Sample.parser init Sample.url).
  reflexivity.
Defined.

Lemma run_None_iff_no_text_witness :
  run (Sample.serve 200 Sample.blank_markup) Sample.status_check
      Sample.blank_parser init Sample.url = Ok None ∧
  ∀ n s, n ∈ Sample.blank_doc → occurs_outside discarded s n →
         Py.strip s = EmptyString.
Proof.
  split; [reflexivity|].
  apply (run_None_iff_no_text (Sample.serve 200 Sample.blank_markup)
           Sample.status_check Sample.blank_parser init Sample.url
           (Response 200 Sample.blank_markup) Sample.blank_doc); reflexivity.
Defined.

Lemma run_propagates_non_Exception_witness :
  run Sample.interrupted Sample.status_check Sample.parser init Sample.url
  = Raise Sample.interrupt.
Proof.
  apply (run_propagates_non_Exception Sample.interrupted Sample.status_check
           Sample.parser init Sample.url Sample.interrupt).
  - reflexivity.
  - left. reflexivity.
Defined.

Lemma history_only_grows_witness :
  ∃ suffix,
    App.history
      (App.script_run (Some "why?") (Some Sample.interrupted_agent) Sample.session).1
      = App.history Sample.session ++ suffix ∧
    suffix = [Message "user" "why?"].
Proof.
  destruct (history_only_grows Sample.session (Some "why?")
              (Some Sample.interrupted_agent)) as (suffix & Hhist & _ & _).
  exists suffix. split; [exact Hhist|].
  apply (app_inv_head (App.history Sample.session)).
  rewrite <- Hhist. reflexivity.
Defined.

Lemma history_unchanged_iff_witness :
  App.history (App.script_run None (Some Sample.answering_agent) Sample.session).1
  = App.history Sample.session.
Proof.
  apply (history_unchanged_iff Sample.session None (Some Sample.answering_agent)).
  left. reflexivity.
Defined.

Lemma script_run_interrupted_witness :
  App.script_run (Some "why?") (Some Sample.interrupted_agent) Sample.session
  = (<["messages" := Sample.earlier ++ [Message "user" "why?"]]> Sample.session,
     Raise Sample.interrupt).
Proof.
  apply (script_run_interrupted Sample.session Sample.interrupted_agent "why?"
           Sample.interrupt); reflexivity.
Defined.

Lemma script_run_keeps_pairs_witness :
  paired
    (App.history
       (App.script_run (Some "why?") (Some Sample.failing_agent) Sample.session).1).
Proof.
  apply (script_run_keeps_pairs Sample.session (Some "why?")
           (Some Sample.failing_agent)).
  - intros a question e [= <-] [= <-]. reflexivity.
  - change (paired Sample.earlier). apply paired_cons, paired_nil.
Defined.
